(** * The SDK error taxonomy of [src/errors/index.ts]

    A shallow embedding of the error classes of the authentication SDK:
    [SdkError], [OAuth2Error], the seven flow-specific errors and the two
    access-token errors, together with the two string enumerations of
    access-token error codes.

    The classes are JavaScript classes: an instance is an object on the heap,
    a bag of named properties with a prototype, and a constructor is a piece
    of code that allocates the object (through [super]) and assigns its
    properties one after the other.  The embedding keeps that shape: a heap of
    objects, a small state-and-exception monad for constructor bodies, and one
    definition per constructor that follows the source statement by
    statement. *)

From stdpp Require Import base option list strings gmap.


(** ** Values, objects and the heap *)

(** A reference to a heap object: its index in the heap. *)
Definition loc := nat.

(** The JavaScript values that occur in this module. *)
Inductive value : Type :=
  | VUndefined
  | VNull
  | VString (s : string)
  | VRef (l : loc).

#[global] Instance value_eq_dec : EqDecision value.
Proof. solve_decision. Defined.

(** An argument of TypeScript type [T | undefined] (a parameter [x?: T]).
    [null] is kept apart from [undefined]: the type excludes it, an untyped
    JavaScript caller can still pass it, and [??] looks at both. *)
Inductive optional (A : Type) : Type :=
  | Undefined
  | Null
  | Given (a : A).
Arguments Undefined {A}.
Arguments Null {A}.
Arguments Given {A} a.

(** [a ?? b]: the right operand when the left one is [undefined] or [null],
    the left operand otherwise (also when it is the empty string). *)
Definition nullish_coalescing {A : Type} (a : optional A) (b : A) : A :=
  match a with
  | Undefined | Null => b
  | Given x => x
  end.
Infix "??" := nullish_coalescing (at level 45, left associativity).

(** The value stored by [this.cause = cause] for a parameter
    [cause?: OAuth2Error]. *)
Definition value_of_ref (c : optional loc) : value :=
  match c with
  | Undefined => VUndefined
  | Null => VNull
  | Given l => VRef l
  end.

(** Is the value something other than [undefined] and [null]? *)
Definition present (v : value) : bool :=
  match v with
  | VUndefined | VNull => false
  | VString _ | VRef _ => true
  end.

(** The classes of the module, and [Error], the built-in root. *)
Inductive class : Type :=
  | Error
  | SdkError
  | OAuth2Error
  | DiscoveryError
  | MissingStateError
  | InvalidStateError
  | AuthorizationError
  | AuthorizationCodeGrantRequestError
  | AuthorizationCodeGrantError
  | BackchannelLogoutError
  | AccessTokenError
  | AccessTokenForConnectionError.

#[global] Instance class_eq_dec : EqDecision class.
Proof. solve_decision. Defined.

(** [class C extends P]. *)
Definition extends (c : class) : option class :=
  match c with
  | Error => None
  | SdkError => Some Error
  | _ => Some SdkError
  end.

(** An object: its prototype (the class it was constructed with [new]) and
    its own properties. *)
Record object : Type := Object {
  proto : class;
  props : gmap string value
}.

Abbreviation heap := (list object).

(** [o.k = v] on the object itself. *)
Definition set_prop (k : string) (v : value) (o : object) : object :=
  {| proto := proto o; props := <[k := v]> (props o) |}.

(** What a property read finds on the prototype chain when the object has no
    own property [k]: [Error.prototype] holds [name] and [message], the
    classes of this module put no data property on their prototypes. *)
Definition inherited (k : string) : value :=
  if decide (k = "name") then VString "Error"
  else if decide (k = "message") then VString ""
  else VUndefined.

(** [o.k] *)
Definition get (o : object) (k : string) : value :=
  default (inherited k) (props o !! k).

(** [l.k] in heap [h]; [None] when [l] is not a live reference. *)
Definition read (h : heap) (l : loc) (k : string) : option value :=
  o ← h !! l; Some (get o k).

(** ** Constructor bodies: state and exceptions *)

(** The outcome of evaluating an expression: a value, or a thrown one. *)
Inductive completion (A : Type) : Type :=
  | Normal (a : A)
  | Throw (e : value).
Arguments Normal {A} a.
Arguments Throw {A} e.

Definition M (A : Type) : Type := heap → completion (A * heap).

#[global] Instance M_ret : MRet M := λ A a h, Normal (a, h).
#[global] Instance M_bind : MBind M := λ A B f m h,
  match m h with
  | Normal (a, h') => f a h'
  | Throw e => Throw e
  end.

(** Allocation of a new object; its reference is the next free index. *)
Definition alloc (o : object) : M loc :=
  λ h, Normal (length h, h ++ [o]).

(** [l.k = v].  Every property of these objects is an ordinary writable data
    property, so the assignment never throws. *)
Definition put (l : loc) (k : string) (v : value) : M unit :=
  λ h, Normal ((), alter (set_prop k v) l h).

(** The property [k] of the object a [new] expression evaluated to. *)
Definition result_field (k : string) (r : completion (loc * heap)) : option value :=
  match r with
  | Normal (l, h) => read h l k
  | Throw _ => None
  end.

(** ** The classes *)

(** [new Error(message)] seen from a derived constructor: the object gets the
    prototype of the class under construction and an own [message].  (The
    engine's [stack] property is left out.) *)
Definition Error_constructor (new_target : class) (message : string) : M loc :=
  alloc {| proto := new_target; props := {[ "message" := VString message ]} |}.

(** [abstract class SdkError extends Error] declares [code] and has no
    constructor of its own: the implicit one passes its arguments on. *)
Definition SdkError_constructor (new_target : class) (message : string) : M loc :=
  Error_constructor new_target message.

(** [new OAuth2Error({ code, message })] *)
Definition new_OAuth2Error (code : string) (message : optional string) : M loc :=
  this ← SdkError_constructor OAuth2Error
    (message ?? "An error occured while interacting with the authorization server.");
  put this "name" (VString "OAuth2Error");;
  put this "code" (VString code);;
  mret this.

(** [new DiscoveryError(message)]; the field initialiser of [code] runs when
    [super] has returned, before the rest of the body. *)
Definition new_DiscoveryError (message : optional string) : M loc :=
  this ← SdkError_constructor DiscoveryError
    (message ?? "Discovery failed for the OpenID Connect configuration.");
  put this "code" (VString "discovery_error");;
  put this "name" (VString "DiscoveryError");;
  mret this.

(** [new MissingStateError(message)] *)
Definition new_MissingStateError (message : optional string) : M loc :=
  this ← SdkError_constructor MissingStateError
    (message ?? "The state parameter is missing.");
  put this "code" (VString "missing_state");;
  put this "name" (VString "MissingStateError");;
  mret this.

(** [new InvalidStateError(message)] *)
Definition new_InvalidStateError (message : optional string) : M loc :=
  this ← SdkError_constructor InvalidStateError
    (message ?? "The state parameter is invalid.");
  put this "code" (VString "invalid_state");;
  put this "name" (VString "InvalidStateError");;
  mret this.

(** [new AuthorizationError({ cause, message })]; [cause: OAuth2Error] is a
    reference to an object that exists already. *)
Definition new_AuthorizationError (cause : loc) (message : optional string) : M loc :=
  this ← SdkError_constructor AuthorizationError
    (message ?? "An error occured during the authorization flow.");
  put this "code" (VString "authorization_error");;
  put this "cause" (VRef cause);;
  put this "name" (VString "AuthorizationError");;
  mret this.

(** [new AuthorizationCodeGrantRequestError(message)] *)
Definition new_AuthorizationCodeGrantRequestError (message : optional string) : M loc :=
  this ← SdkError_constructor AuthorizationCodeGrantRequestError
    (message ??
      "An error occured while preparing or performing the authorization code grant request.");
  put this "code" (VString "authorization_code_grant_request_error");;
  put this "name" (VString "AuthorizationCodeGrantRequestError");;
  mret this.

(** [new AuthorizationCodeGrantError({ cause, message })] *)
Definition new_AuthorizationCodeGrantError (cause : loc) (message : optional string) : M loc :=
  this ← SdkError_constructor AuthorizationCodeGrantError
    (message ??
      "An error occured while trying to exchange the authorization code.");
  put this "code" (VString "authorization_code_grant_error");;
  put this "cause" (VRef cause);;
  put this "name" (VString "AuthorizationCodeGrantError");;
  mret this.

(** [new BackchannelLogoutError(message)] *)
Definition new_BackchannelLogoutError (message : optional string) : M loc :=
  this ← SdkError_constructor BackchannelLogoutError
    (message ??
      "An error occured while completing the backchannel logout request.");
  put this "code" (VString "backchannel_logout_error");;
  put this "name" (VString "BackchannelLogoutError");;
  mret this.

(** [enum AccessTokenErrorCode]: a string enumeration, each member is its
    string at run time. *)
Module AccessTokenErrorCode.
Inductive t : Type :=
  | MISSING_SESSION
  | MISSING_REFRESH_TOKEN
  | FAILED_TO_REFRESH_TOKEN.

Definition to_string (c : t) : string :=
  match c with
  | MISSING_SESSION => "missing_session"
  | MISSING_REFRESH_TOKEN => "missing_refresh_token"
  | FAILED_TO_REFRESH_TOKEN => "failed_to_refresh_token"
  end.

Definition members : list t :=
  [MISSING_SESSION; MISSING_REFRESH_TOKEN; FAILED_TO_REFRESH_TOKEN].

(** The strings of the enumeration. *)
Definition codes : list string := to_string <$> members.
End AccessTokenErrorCode.

(** [new AccessTokenError(code, message, cause)]; [code] is declared
    [string], [cause] is optional. *)
Definition new_AccessTokenError
    (code : string) (message : string) (cause : optional loc) : M loc :=
  this ← SdkError_constructor AccessTokenError message;
  put this "name" (VString "AccessTokenError");;
  put this "code" (VString code);;
  put this "cause" (value_of_ref cause);;
  mret this.

(** [enum AccessTokenForConnectionErrorCode] *)
Module AccessTokenForConnectionErrorCode.
Inductive t : Type :=
  | MISSING_SESSION
  | MISSING_REFRESH_TOKEN
  | FAILED_TO_EXCHANGE.

Definition to_string (c : t) : string :=
  match c with
  | MISSING_SESSION => "missing_session"
  | MISSING_REFRESH_TOKEN => "missing_refresh_token"
  | FAILED_TO_EXCHANGE => "failed_to_exchange_refresh_token"
  end.

Definition members : list t :=
  [MISSING_SESSION; MISSING_REFRESH_TOKEN; FAILED_TO_EXCHANGE].

(** The strings of the enumeration. *)
Definition codes : list string := to_string <$> members.
End AccessTokenForConnectionErrorCode.

(** [new AccessTokenForConnectionError(code, message, cause)] *)
Definition new_AccessTokenForConnectionError
    (code : string) (message : string) (cause : optional loc) : M loc :=
  this ← SdkError_constructor AccessTokenForConnectionError message;
  put this "name" (VString "AccessTokenForConnectionError");;
  put this "code" (VString code);;
  put this "cause" (value_of_ref cause);;
  mret this.

(** ** Field declarations and assignment from outside *)

(** A field declaration of a class body, with the modifiers that decide
    whether code outside the class may assign the field. *)
Record field_decl : Type := Field {
  field_name : string;
  is_public : bool;
  is_readonly : bool
}.

(** The fields each class declares itself.  Those of [Error] are the ones of
    the standard library's [interface Error] ([name: string; message:
    string]); the others are the [public ...] lines of the class bodies, none
    of which says [readonly]. *)
Definition declared_fields (c : class) : list field_decl :=
  match c with
  | Error => [Field "name" true false; Field "message" true false]
  | SdkError => [Field "code" true false]
  | OAuth2Error => [Field "code" true false]
  | DiscoveryError | MissingStateError | InvalidStateError
  | AuthorizationCodeGrantRequestError | BackchannelLogoutError =>
      [Field "code" true false]
  | AuthorizationError | AuthorizationCodeGrantError
  | AccessTokenError | AccessTokenForConnectionError =>
      [Field "code" true false; Field "cause" true false]
  end.

(** The class, its parent, its parent's parent: no chain here is longer. *)
Definition ancestry (c : class) : list class :=
  c :: match extends c with
       | None => []
       | Some p => p :: match extends p with
                        | None => []
                        | Some q => [q]
                        end
       end.

(** The declaration that governs [k] on an instance of [c]: the nearest one
    along the chain. *)
Definition field_of (c : class) (k : string) : option field_decl :=
  head (filter (λ d, field_name d = k) (ancestry c ≫= declared_fields)).

(** [l.k = v] written by code outside the class: accepted when [k] is a
    declared public field that is not [readonly], and then it overwrites the
    property; [None] when the assignment is refused. *)
Definition assign (l : loc) (k : string) (v : value) (h : heap) : option heap :=
  o ← h !! l;
  d ← field_of (proto o) k;
  if is_public d && negb (is_readonly d)
  then Some (<[l := set_prop k v o]> h)
  else None.

(** ** The defaults the specification documents *)

(** The table of default messages of the seven flow-specific errors and the
    generic sentence of the provider error, in the specification's words. *)
Definition documented_default_message (c : class) : option string :=
  match c with
  | OAuth2Error =>
      Some "An error occurred while interacting with the authorization server."
  | DiscoveryError =>
      Some "Discovery failed for the OpenID Connect configuration."
  | MissingStateError => Some "The state parameter is missing."
  | InvalidStateError => Some "The state parameter is invalid."
  | AuthorizationError =>
      Some "An error occurred during the authorization flow."
  | AuthorizationCodeGrantRequestError =>
      Some "An error occurred while preparing or performing the authorization code grant request."
  | AuthorizationCodeGrantError =>
      Some "An error occurred while trying to exchange the authorization code."
  | BackchannelLogoutError =>
      Some "An error occurred while completing the backchannel logout request."
  | _ => None
  end.

(** The object a [new] expression evaluated to, and the heap it left. *)
Definition result_object (r : completion (loc * heap)) : option object :=
  match r with
  | Normal (l, h) => h !! l
  | Throw _ => None
  end.

Definition result_heap (r : completion (loc * heap)) : option heap :=
  match r with
  | Normal (_, h) => Some h
  | Throw _ => None
  end.

(** ** Observations the properties are stated with *)

(** The message of a constructed error, as a string. *)
Definition message_of (r : completion (loc * heap)) : option string :=
  match result_field "message" r with
  | Some (VString s) => Some s
  | _ => None
  end.

(** Did the [new] expression throw? *)
Definition rejected {A : Type} (r : completion A) : bool :=
  match r with
  | Normal _ => false
  | Throw _ => true
  end.

(** Does the constructed error carry a cause, a value other than
    [undefined] and [null]? *)
Definition cause_present (r : completion (loc * heap)) : bool :=
  match result_field "cause" r with
  | Some v => present v
  | None => false
  end.

(** Did the caller pass a cause? *)
Definition supplied {A : Type} (a : optional A) : bool :=
  match a with
  | Given _ => true
  | Undefined | Null => false
  end.

(** The constructed error's code is one of [codes]. *)
Definition has_enumerated_code (codes : list string) (r : completion (loc * heap)) : Prop :=
  ∃ s, s ∈ codes ∧ result_field "code" r = Some (VString s).

(** An explicit message replaces the message and nothing else: the code is
    the class's constant and the object is the one built without a message,
    with [message] overwritten. *)
Definition message_override (new : optional string → M loc) (code : string) : Prop :=
  ∀ s h,
    result_field "message" (new (Given s) h) = Some (VString s)
    ∧ result_field "code" (new (Given s) h) = Some (VString code)
    ∧ result_object (new (Given s) h)
      = set_prop "message" (VString s) <$> result_object (new Undefined h).

(** The default [d] is used for [undefined] and for [null], and for no
    string: a given string, the empty one included, is the message.  For the
    empty string that is neither [d] nor the text documented for class [c]. *)
Definition defaults_only_when_nullish
    (c : class) (new : optional string → M loc) (d : string) : Prop :=
  ∀ h,
    result_field "message" (new Undefined h) = Some (VString d)
    ∧ result_field "message" (new Null h) = Some (VString d)
    ∧ (∀ s, result_field "message" (new (Given s) h) = Some (VString s))
    ∧ result_field "message" (new (Given "") h) = Some (VString "")
    ∧ VString "" ≠ VString d
    ∧ message_of (new (Given "") h) ≠ documented_default_message c.

(** A heap holding one provider error, [new OAuth2Error({ code:
    "access_denied" })], at reference 0. *)
Definition provider_error_heap : heap :=
  default [] (result_heap (new_OAuth2Error "access_denied" Undefined [])).

(** The provider error in that heap. *)
Definition provider_error : object :=
  {| proto := OAuth2Error;
     props := {[ "message" :=
                   VString "An error occured while interacting with the authorization server.";
                 "name" := VString "OAuth2Error";
                 "code" := VString "access_denied" ]} |}.

(** [constructs m o]: run in any heap, [m] returns normally, allocates [o]
    at the next free reference and returns that reference. *)
Definition constructs (m : M loc) (o : object) : Prop :=
  ∀ h, m h = Normal (length h, h ++ [o]).

(** The object a constructor leaves behind: the properties in the order the
    body assigns them. *)
Definition assigned (c : class) (message : string) (ps : list (string * value)) : object :=
  foldl (λ o p, set_prop p.1 p.2 o)
        (Object c {[ "message" := VString message ]}) ps.

(** The object at reference [i] once the [new] expression has run. *)
Definition object_after (r : completion (loc * heap)) (i : loc) : option object :=
  h ← result_heap r; h !! i.

(** The number of objects on the heap once the [new] expression has run. *)
Definition objects_after (r : completion (loc * heap)) : option nat :=
  length <$> result_heap r.

(** ** Observations on chains of errors and on instances *)

(** [o instanceof c]: [c] is on the prototype chain of [o]. *)
Definition instance_of (o : object) (c : class) : bool :=
  bool_decide (c ∈ ancestry (proto o)).


(** [l.cause.k]: the property [k] of the error that [l] has as its cause;
    [None] when [l] has no cause to follow. *)
Definition read_cause (h : heap) (l : loc) (k : string) : option value :=
  match read h l "cause" with
  | Some (VRef c) => read h c k
  | _ => None
  end.

(** [e.cause.k] for the error [e] a [new] expression evaluated to. *)
Definition result_cause_field (k : string) (r : completion (loc * heap)) : option value :=
  match r with
  | Normal (l, h) => read_cause h l k
  | Throw _ => None
  end.

(** The provider reports a failure and the SDK wraps it:
    [new W({ cause: new OAuth2Error({ code, message: description }), message })]
    for a wrapper [W] that takes the cause by reference. *)
Definition wrap_provider_error
    (wrapper : loc → M loc) (code : string) (description : optional string) : M loc :=
  cause ← new_OAuth2Error code description;
  wrapper cause.

(** Two [new] expressions one after the other, both results kept. *)
Definition twice (m : M loc) : M (loc * loc) :=
  first ← m;
  second ← m;
  mret (first, second).

(** The [new] expression evaluated to an instance of class [c]: an object
    whose prototype is [c], which makes it an instance of [c], of [SdkError]
    and of [Error], and of no other class. *)
Definition constructed_as (c : class) (r : completion (loc * heap)) : Prop :=
  ∃ o, result_object r = Some o
       ∧ proto o = c
       ∧ ∀ c', instance_of o c' = bool_decide (c' ∈ [c; SdkError; Error]).

(** The error a [new] expression evaluated to has the provider error
    [new OAuth2Error({ code, message: description })] as its cause: the
    cause's code, message and name read through the error. *)
Definition carries_provider_error
    (r : completion (loc * heap)) (code : string) (description : optional string) : Prop :=
  result_cause_field "code" r = Some (VString code)
  ∧ result_cause_field "message" r
    = Some (VString (description ??
                       "An error occured while interacting with the authorization server."))
  ∧ result_cause_field "name" r = Some (VString "OAuth2Error").

(** The codes of the seven flow-specific errors, each read off a constructed
    instance. *)
Definition flow_codes (message : optional string) (cause : loc) (h : heap) : list (option value) :=
  [ result_field "code" (new_DiscoveryError message h);
    result_field "code" (new_MissingStateError message h);
    result_field "code" (new_InvalidStateError message h);
    result_field "code" (new_AuthorizationError cause message h);
    result_field "code" (new_AuthorizationCodeGrantRequestError message h);
    result_field "code" (new_AuthorizationCodeGrantError cause message h);
    result_field "code" (new_BackchannelLogoutError message h) ].

(** The codes of the two access-token enumerations, as property values. *)
Definition access_token_codes : list (option value) :=
  (Some ∘ VString) <$>
    (AccessTokenErrorCode.codes ++ AccessTokenForConnectionErrorCode.codes).

(** * Reasoning about constructor bodies *)

Section heap_lemmas.
Implicit Types (h : heap) (o : object) (k : string) (v : value).

Lemma put_last h o k v :
  put (length h) k v (h ++ [o]) = Normal ((), h ++ [set_prop k v o]).
Proof.
  unfold put. f_equal. f_equal.
  rewrite alter_app_r_alt by lia.
  by rewrite Nat.sub_diag.
Qed.

Lemma lookup_last h o : (h ++ [o]) !! length h = Some o.
Proof. by rewrite list_lookup_middle. Qed.

Lemma read_last h o k : read (h ++ [o]) (length h) k = Some (get o k).
Proof. unfold read. by rewrite lookup_last. Qed.

Lemma lookup_older h o i o' : h !! i = Some o' → (h ++ [o]) !! i = Some o'.
Proof. intros Hi. rewrite lookup_app_l; [done | by eapply lookup_lt_Some]. Qed.
End heap_lemmas.

(** One step of a constructor body: [super(...)] allocates, an assignment to
    [this] rewrites the object just allocated. *)
Lemma bind_alloc {B} (o : object) (f : loc → M B) (h : heap) :
  (alloc o ≫= f) h = f (length h) (h ++ [o]).
Proof. reflexivity. Qed.

Lemma bind_put_last {B} (h : heap) (o : object) k v (f : M B) :
  (put (length h) k v ≫= λ _, f) (h ++ [o]) = f (h ++ [set_prop k v o]).
Proof. unfold mbind, M_bind. by rewrite put_last. Qed.

Ltac run_constructor :=
  unfold SdkError_constructor, Error_constructor;
  rewrite bind_alloc; rewrite ?bind_put_last;
  unfold mret, M_ret.

Create HintDb constructors.

Lemma new_OAuth2Error_constructs code message :
  constructs (new_OAuth2Error code message)
    (assigned OAuth2Error
       (message ?? "An error occured while interacting with the authorization server.")
       [("name", VString "OAuth2Error"); ("code", VString code)]).
Proof. intros h. unfold new_OAuth2Error. by run_constructor. Qed.

Lemma new_DiscoveryError_constructs message :
  constructs (new_DiscoveryError message)
    (assigned DiscoveryError
       (message ?? "Discovery failed for the OpenID Connect configuration.")
       [("code", VString "discovery_error"); ("name", VString "DiscoveryError")]).
Proof. intros h. unfold new_DiscoveryError. by run_constructor. Qed.

Lemma new_MissingStateError_constructs message :
  constructs (new_MissingStateError message)
    (assigned MissingStateError
       (message ?? "The state parameter is missing.")
       [("code", VString "missing_state"); ("name", VString "MissingStateError")]).
Proof. intros h. unfold new_MissingStateError. by run_constructor. Qed.

Lemma new_InvalidStateError_constructs message :
  constructs (new_InvalidStateError message)
    (assigned InvalidStateError
       (message ?? "The state parameter is invalid.")
       [("code", VString "invalid_state"); ("name", VString "InvalidStateError")]).
Proof. intros h. unfold new_InvalidStateError. by run_constructor. Qed.

Lemma new_AuthorizationError_constructs cause message :
  constructs (new_AuthorizationError cause message)
    (assigned AuthorizationError
       (message ?? "An error occured during the authorization flow.")
       [("code", VString "authorization_error"); ("cause", VRef cause);
        ("name", VString "AuthorizationError")]).
Proof. intros h. unfold new_AuthorizationError. by run_constructor. Qed.

Lemma new_AuthorizationCodeGrantRequestError_constructs message :
  constructs (new_AuthorizationCodeGrantRequestError message)
    (assigned AuthorizationCodeGrantRequestError
       (message ??
          "An error occured while preparing or performing the authorization code grant request.")
       [("code", VString "authorization_code_grant_request_error");
        ("name", VString "AuthorizationCodeGrantRequestError")]).
Proof. intros h. unfold new_AuthorizationCodeGrantRequestError. by run_constructor. Qed.

Lemma new_AuthorizationCodeGrantError_constructs cause message :
  constructs (new_AuthorizationCodeGrantError cause message)
    (assigned AuthorizationCodeGrantError
       (message ?? "An error occured while trying to exchange the authorization code.")
       [("code", VString "authorization_code_grant_error"); ("cause", VRef cause);
        ("name", VString "AuthorizationCodeGrantError")]).
Proof. intros h. unfold new_AuthorizationCodeGrantError. by run_constructor. Qed.

Lemma new_BackchannelLogoutError_constructs message :
  constructs (new_BackchannelLogoutError message)
    (assigned BackchannelLogoutError
       (message ?? "An error occured while completing the backchannel logout request.")
       [("code", VString "backchannel_logout_error");
        ("name", VString "BackchannelLogoutError")]).
Proof. intros h. unfold new_BackchannelLogoutError. by run_constructor. Qed.

Lemma new_AccessTokenError_constructs code message cause :
  constructs (new_AccessTokenError code message cause)
    (assigned AccessTokenError message
       [("name", VString "AccessTokenError"); ("code", VString code);
        ("cause", value_of_ref cause)]).
Proof. intros h. unfold new_AccessTokenError. by run_constructor. Qed.

Lemma new_AccessTokenForConnectionError_constructs code message cause :
  constructs (new_AccessTokenForConnectionError code message cause)
    (assigned AccessTokenForConnectionError message
       [("name", VString "AccessTokenForConnectionError"); ("code", VString code);
        ("cause", value_of_ref cause)]).
Proof. intros h. unfold new_AccessTokenForConnectionError. by run_constructor. Qed.

#[global] Hint Resolve
  new_OAuth2Error_constructs new_DiscoveryError_constructs
  new_MissingStateError_constructs new_InvalidStateError_constructs
  new_AuthorizationError_constructs new_AuthorizationCodeGrantRequestError_constructs
  new_AuthorizationCodeGrantError_constructs new_BackchannelLogoutError_constructs
  new_AccessTokenError_constructs new_AccessTokenForConnectionError_constructs
  : constructors.

(** What follows from [constructs] for the observations used below. *)
Section constructs.
Context (m : M loc) (o : object) (Hm : constructs m o).

Lemma constructs_field h k : result_field k (m h) = Some (get o k).
Proof. rewrite Hm. apply read_last. Qed.

Lemma constructs_object h : result_object (m h) = Some o.
Proof. rewrite Hm. apply lookup_last. Qed.

Lemma constructs_heap h : result_heap (m h) = Some (h ++ [o]).
Proof. by rewrite Hm. Qed.

Lemma constructs_frame h i o' :
  h !! i = Some o' → object_after (m h) i = Some o'.
Proof.
  intros Hi. unfold object_after. rewrite constructs_heap. simpl.
  by apply lookup_older.
Qed.

Lemma constructs_one_object h : objects_after (m h) = Some (S (length h)).
Proof.
  unfold objects_after. rewrite constructs_heap. simpl.
  rewrite length_app. simpl. f_equal. lia.
Qed.
End constructs.

(** Reads the field of a freshly constructed error off the constructor's
    object and evaluates the property lookup. *)
Ltac field_of_new :=
  repeat (erewrite constructs_field by eauto with constructors);
  repeat (erewrite constructs_object by eauto with constructors).

Ltac evaluate :=
  lazymatch goal with
  | |- ∀ _ : string, _ => intro
  | |- _ => idtac
  end;
  field_of_new; vm_compute; try reflexivity.

(** * Properties of the error classes *)

(** ** Provider errors *)

(** C4, the code at the input where it parts from the documentation.  With
    [message] absent the provider error's message is the source's literal,
    which spells "occured" and so is not the documented sentence; a supplied
    [code] and [message] are both stored unchanged. *)
Theorem OAuth2Error_default_message_and_round_trip code message h :
  message_of (new_OAuth2Error code Undefined h)
    = Some "An error occured while interacting with the authorization server."
  ∧ message_of (new_OAuth2Error code Undefined h)
    ≠ documented_default_message OAuth2Error
  ∧ result_field "code" (new_OAuth2Error code (Given message) h) = Some (VString code)
  ∧ result_field "message" (new_OAuth2Error code (Given message) h) = Some (VString message).
Proof.
  unfold message_of. repeat split; by evaluate.
Qed.

(** C7, the claim at the empty code: construction is not rejected, the
    instance exists and its code is the empty string. *)
Lemma OAuth2Error_accepts_empty_code :
  ¬ (rejected (new_OAuth2Error "" Undefined []) = true)
  ∧ result_field "code" (new_OAuth2Error "" Undefined []) = Some (VString "").
Proof. split; by vm_compute. Qed.

(** C7 as the code has it: the constructor validates nothing.  For every
    code, empty or not, and every message, construction returns normally and
    the instance carries the code it was given. *)
Theorem OAuth2Error_construction_never_rejects code message h :
  rejected (new_OAuth2Error code message h) = false
  ∧ result_field "code" (new_OAuth2Error code message h) = Some (VString code).
Proof.
  split; [| by evaluate].
  by rewrite new_OAuth2Error_constructs.
Qed.

(** ** Flow-specific errors *)

(** C2, the code at the inputs where it parts from the documentation.
    Constructed without a message, [DiscoveryError], [MissingStateError] and
    [InvalidStateError] carry the documented default; the other four carry the
    source's literal, spelled "occured", which is not the documented text. *)
Theorem flow_default_messages h cause :
  message_of (new_DiscoveryError Undefined h)
    = documented_default_message DiscoveryError
  ∧ message_of (new_MissingStateError Undefined h)
    = documented_default_message MissingStateError
  ∧ message_of (new_InvalidStateError Undefined h)
    = documented_default_message InvalidStateError
  ∧ (message_of (new_AuthorizationError cause Undefined h)
       = Some "An error occured during the authorization flow."
     ∧ message_of (new_AuthorizationError cause Undefined h)
       ≠ documented_default_message AuthorizationError)
  ∧ (message_of (new_AuthorizationCodeGrantRequestError Undefined h)
       = Some "An error occured while preparing or performing the authorization code grant request."
     ∧ message_of (new_AuthorizationCodeGrantRequestError Undefined h)
       ≠ documented_default_message AuthorizationCodeGrantRequestError)
  ∧ (message_of (new_AuthorizationCodeGrantError cause Undefined h)
       = Some "An error occured while trying to exchange the authorization code."
     ∧ message_of (new_AuthorizationCodeGrantError cause Undefined h)
       ≠ documented_default_message AuthorizationCodeGrantError)
  ∧ (message_of (new_BackchannelLogoutError Undefined h)
       = Some "An error occured while completing the backchannel logout request."
     ∧ message_of (new_BackchannelLogoutError Undefined h)
       ≠ documented_default_message BackchannelLogoutError).
Proof.
  unfold message_of. repeat split; by evaluate.
Qed.

(** C5: the code of each of the seven flow-specific errors is a constant of
    its class; whatever message or cause the constructor receives, in whatever
    heap, the instance carries that constant. *)
Theorem flow_codes_are_fixed message cause h :
  result_field "code" (new_DiscoveryError message h)
    = Some (VString "discovery_error")
  ∧ result_field "code" (new_MissingStateError message h)
    = Some (VString "missing_state")
  ∧ result_field "code" (new_InvalidStateError message h)
    = Some (VString "invalid_state")
  ∧ result_field "code" (new_AuthorizationError cause message h)
    = Some (VString "authorization_error")
  ∧ result_field "code" (new_AuthorizationCodeGrantRequestError message h)
    = Some (VString "authorization_code_grant_request_error")
  ∧ result_field "code" (new_AuthorizationCodeGrantError cause message h)
    = Some (VString "authorization_code_grant_error")
  ∧ result_field "code" (new_BackchannelLogoutError message h)
    = Some (VString "backchannel_logout_error").
Proof. repeat split; by evaluate. Qed.

(** C8: with an explicit message each of the seven flow-specific errors
    carries exactly that message and its fixed code, and is otherwise the
    object the constructor builds without a message. *)
Theorem flow_message_override cause :
  message_override new_DiscoveryError "discovery_error"
  ∧ message_override new_MissingStateError "missing_state"
  ∧ message_override new_InvalidStateError "invalid_state"
  ∧ message_override (new_AuthorizationError cause) "authorization_error"
  ∧ message_override new_AuthorizationCodeGrantRequestError
      "authorization_code_grant_request_error"
  ∧ message_override (new_AuthorizationCodeGrantError cause)
      "authorization_code_grant_error"
  ∧ message_override new_BackchannelLogoutError "backchannel_logout_error".
Proof. repeat split; by evaluate. Qed.

(** C10: the default is chosen by [??], so it applies to [undefined] and
    [null] and to nothing else; the empty string is a message like any other
    and is stored as it is.  This holds for the provider error and the seven
    flow-specific errors, the variants whose message is optional. *)
Theorem defaults_apply_only_to_nullish code cause :
  defaults_only_when_nullish OAuth2Error (new_OAuth2Error code)
    "An error occured while interacting with the authorization server."
  ∧ defaults_only_when_nullish DiscoveryError new_DiscoveryError
    "Discovery failed for the OpenID Connect configuration."
  ∧ defaults_only_when_nullish MissingStateError new_MissingStateError
    "The state parameter is missing."
  ∧ defaults_only_when_nullish InvalidStateError new_InvalidStateError
    "The state parameter is invalid."
  ∧ defaults_only_when_nullish AuthorizationError (new_AuthorizationError cause)
    "An error occured during the authorization flow."
  ∧ defaults_only_when_nullish AuthorizationCodeGrantRequestError new_AuthorizationCodeGrantRequestError
    "An error occured while preparing or performing the authorization code grant request."
  ∧ defaults_only_when_nullish AuthorizationCodeGrantError (new_AuthorizationCodeGrantError cause)
    "An error occured while trying to exchange the authorization code."
  ∧ defaults_only_when_nullish BackchannelLogoutError new_BackchannelLogoutError
    "An error occured while completing the backchannel logout request.".
Proof.
  unfold defaults_only_when_nullish, message_of.
  repeat split; by evaluate.
Qed.

(** C3: [AuthorizationError] and [AuthorizationCodeGrantError] take their
    cause as a required reference to a provider error.  The instance's
    [cause] is that very reference; the provider error it points to is the
    object it was before, and the construction allocates one object only,
    the error itself, so the cause is not copied. *)
Theorem authorization_errors_keep_their_cause h cause o message :
  h !! cause = Some o →
  (result_field "cause" (new_AuthorizationError cause message h) = Some (VRef cause)
   ∧ cause_present (new_AuthorizationError cause message h) = true
   ∧ object_after (new_AuthorizationError cause message h) cause = Some o
   ∧ objects_after (new_AuthorizationError cause message h) = Some (S (length h)))
  ∧ (result_field "cause" (new_AuthorizationCodeGrantError cause message h) = Some (VRef cause)
     ∧ cause_present (new_AuthorizationCodeGrantError cause message h) = true
     ∧ object_after (new_AuthorizationCodeGrantError cause message h) cause = Some o
     ∧ objects_after (new_AuthorizationCodeGrantError cause message h) = Some (S (length h))).
Proof.
  intros Hcause. unfold cause_present.
  repeat split;
    lazymatch goal with
    | |- object_after _ _ = _ => eapply constructs_frame; eauto with constructors
    | |- objects_after _ = _ => eapply constructs_one_object; eauto with constructors
    | |- _ => by evaluate
    end.
Qed.

(** C3 at a heap that holds a provider error, used as the cause. *)
Lemma authorization_errors_keep_their_cause_witness :
  provider_error_heap !! 0 = Some provider_error
  ∧ result_field "cause" (new_AuthorizationError 0 Undefined provider_error_heap)
    = Some (VRef 0)
  ∧ object_after (new_AuthorizationCodeGrantError 0 Undefined provider_error_heap) 0
    = Some provider_error.
Proof.
  assert (Hlive : provider_error_heap !! 0 = Some provider_error) by reflexivity.
  destruct (authorization_errors_keep_their_cause
              provider_error_heap 0 provider_error Undefined Hlive)
    as [(Hcause & _) (_ & _ & Hsame & _)].
  split; [exact Hlive |]. split; [exact Hcause | exact Hsame].
Defined.

(** ** Access-token errors *)

(** C1, the claim at [missing_session] with a cause supplied: the
    constructor does not throw and does not drop the cause, so the instance
    has a cause although its code is not the refresh-failure code.  The same
    for the connection variant at [missing_refresh_token]. *)
Lemma access_token_error_cause_without_failure_code :
  (rejected (new_AccessTokenError "missing_session" "No session."
               (Given 0) provider_error_heap) = false
   ∧ ¬ (cause_present (new_AccessTokenError "missing_session" "No session."
                         (Given 0) provider_error_heap) = true
        ↔ result_field "code" (new_AccessTokenError "missing_session" "No session."
                                 (Given 0) provider_error_heap)
          = Some (VString "failed_to_refresh_token")))
  ∧ (rejected (new_AccessTokenForConnectionError "missing_refresh_token"
                 "No refresh token." (Given 0) provider_error_heap) = false
     ∧ ¬ (cause_present (new_AccessTokenForConnectionError "missing_refresh_token"
                           "No refresh token." (Given 0) provider_error_heap) = true
          ↔ result_field "code" (new_AccessTokenForConnectionError "missing_refresh_token"
                                   "No refresh token." (Given 0) provider_error_heap)
            = Some (VString "failed_to_exchange_refresh_token"))).
Proof.
  repeat split; try (by vm_compute).
  all: vm_compute; intros [Hcode _]; by specialize (Hcode eq_refl).
Qed.

(** C1 as the code has it: both constructors store the [cause] argument as
    it comes, whatever the code.  The instance has a cause exactly when the
    caller supplied one. *)
Theorem access_token_errors_store_the_cause_supplied code message cause h :
  result_field "cause" (new_AccessTokenError code message cause h)
    = Some (value_of_ref cause)
  ∧ cause_present (new_AccessTokenError code message cause h) = supplied cause
  ∧ result_field "cause" (new_AccessTokenForConnectionError code message cause h)
    = Some (value_of_ref cause)
  ∧ cause_present (new_AccessTokenForConnectionError code message cause h)
    = supplied cause.
Proof.
  unfold cause_present.
  repeat split; field_of_new; by destruct cause.
Qed.

(** C6, the claim at a code outside the enumerations: the parameter is a
    [string], the constructors take it, and the instance carries it. *)
Lemma access_token_error_code_outside_enumeration :
  ¬ has_enumerated_code AccessTokenErrorCode.codes
      (new_AccessTokenError "token_expired" "The token expired." Undefined [])
  ∧ ¬ has_enumerated_code AccessTokenForConnectionErrorCode.codes
        (new_AccessTokenForConnectionError "token_expired" "The token expired." Undefined []).
Proof.
  split; intros (s & Hs & Hcode); vm_compute in Hcode;
    injection Hcode as <-; apply list_elem_of_In in Hs; cbn in Hs;
    intuition discriminate.
Qed.

(** C6 as the code has it: the instance's code is the string passed as
    [code]; when that string is a member of the class's enumeration, the
    instance's code is in the enumeration. *)
Theorem access_token_error_code_is_the_argument code message cause h :
  result_field "code" (new_AccessTokenError code message cause h)
    = Some (VString code)
  ∧ result_field "code" (new_AccessTokenForConnectionError code message cause h)
    = Some (VString code)
  ∧ (∀ c, has_enumerated_code AccessTokenErrorCode.codes
            (new_AccessTokenError (AccessTokenErrorCode.to_string c) message cause h))
  ∧ (∀ c, has_enumerated_code AccessTokenForConnectionErrorCode.codes
            (new_AccessTokenForConnectionError
               (AccessTokenForConnectionErrorCode.to_string c) message cause h)).
Proof.
  split; [by evaluate |]. split; [by evaluate |]. split.
  - intros c. exists (AccessTokenErrorCode.to_string c). split.
    + apply list_elem_of_In. destruct c; cbn; auto.
    + by evaluate.
  - intros c. exists (AccessTokenForConnectionErrorCode.to_string c). split.
    + apply list_elem_of_In. destruct c; cbn; auto.
    + by evaluate.
Qed.

(** ** Immutability *)

(** C9, the read-only half of the claim at a provider error: [code] is a
    public field without [readonly], so an assignment from outside is
    accepted and changes the code of the constructed instance. *)
Lemma provider_error_code_is_assignable :
  read provider_error_heap 0 "code" = Some (VString "access_denied")
  ∧ assign 0 "code" (VString "server_error") provider_error_heap ≠ None
  ∧ (h ← assign 0 "code" (VString "server_error") provider_error_heap;
     read h 0 "code") = Some (VString "server_error").
Proof. repeat split; by vm_compute. Qed.

(** C9 as the code has it: the operations of the module are its
    constructors, and none of them touches an object that exists already.
    Whatever object [o] sits at a live reference [i] before a construction,
    with its code, message and cause, sits there unchanged after it.  The
    fields are not read-only for that: on a provider error, an assignment to
    [code] or to [message] from outside is accepted and overwrites it. *)
Theorem constructors_leave_existing_errors_unchanged h i o :
  h !! i = Some o →
  (∀ code message, object_after (new_OAuth2Error code message h) i = Some o)
  ∧ (∀ message, object_after (new_DiscoveryError message h) i = Some o)
  ∧ (∀ message, object_after (new_MissingStateError message h) i = Some o)
  ∧ (∀ message, object_after (new_InvalidStateError message h) i = Some o)
  ∧ (∀ cause message, object_after (new_AuthorizationError cause message h) i = Some o)
  ∧ (∀ message,
       object_after (new_AuthorizationCodeGrantRequestError message h) i = Some o)
  ∧ (∀ cause message,
       object_after (new_AuthorizationCodeGrantError cause message h) i = Some o)
  ∧ (∀ message, object_after (new_BackchannelLogoutError message h) i = Some o)
  ∧ (∀ code message cause,
       object_after (new_AccessTokenError code message cause h) i = Some o)
  ∧ (∀ code message cause,
       object_after (new_AccessTokenForConnectionError code message cause h) i = Some o)
  ∧ (proto o = OAuth2Error →
     ∀ v, assign i "code" v h = Some (<[i := set_prop "code" v o]> h)
          ∧ assign i "message" v h = Some (<[i := set_prop "message" v o]> h)).
Proof.
  intros Hi.
  repeat split;
    lazymatch goal with
    | |- assign _ _ _ _ = _ => idtac
    | |- _ => intros; eapply constructs_frame; eauto with constructors
    end.
  all: unfold assign; rewrite Hi; simpl.
  all: match goal with H : proto _ = _ |- _ => by rewrite H end.
Qed.

(** C9 at a heap that holds a provider error: constructing an access-token
    error that refers to it leaves it as it was. *)
Lemma constructors_leave_existing_errors_unchanged_witness :
  provider_error_heap !! 0 = Some provider_error
  ∧ object_after (new_AccessTokenError "failed_to_refresh_token"
                    "The access token could not be refreshed." (Given 0)
                    provider_error_heap) 0
    = Some provider_error.
Proof.
  assert (Hlive : provider_error_heap !! 0 = Some provider_error) by reflexivity.
  destruct (constructors_leave_existing_errors_unchanged
              provider_error_heap 0 provider_error Hlive)
    as (_ & _ & _ & _ & _ & _ & _ & _ & Hsame & _).
  split; [exact Hlive | apply Hsame].
Defined.

(** * Further properties of the constructors *)

(** Splits a conjunction into its conjuncts, and nothing else. *)
Ltac conjuncts := repeat match goal with |- _ ∧ _ => split end.

(** Two constructions in a row: the second object is allocated after the
    first, which stays as it is. *)
Lemma constructs_then (m : M loc) (o1 : object) (f : loc → M loc) (o2 : loc → object) :
  constructs m o1 → (∀ l, constructs (f l) (o2 l)) →
  ∀ h, (m ≫= f) h = Normal (S (length h), h ++ [o1; o2 (length h)]).
Proof.
  intros Hm Hf h. unfold mbind, M_bind. rewrite Hm, Hf.
  rewrite length_app, <- app_assoc. simpl. do 2 f_equal. lia.
Qed.

Lemma lookup_last_but_one (h : heap) (o1 o2 : object) :
  (h ++ [o1; o2]) !! length h = Some o1.
Proof. by rewrite list_lookup_middle. Qed.

Lemma lookup_last_of_two (h : heap) (o1 o2 : object) :
  (h ++ [o1; o2]) !! S (length h) = Some o2.
Proof.
  change (h ++ [o1; o2]) with (h ++ [o1] ++ [o2]).
  rewrite app_assoc. rewrite list_lookup_middle; [done |].
  rewrite length_app. simpl. lia.
Qed.

(** The wrapped provider error sits just below its wrapper. *)
Lemma wrap_provider_error_run wrapper (o2 : loc → object) code description h :
  (∀ l, constructs (wrapper l) (o2 l)) →
  wrap_provider_error wrapper code description h =
  Normal (S (length h),
          h ++ [assigned OAuth2Error
                  (description ??
                     "An error occured while interacting with the authorization server.")
                  [("name", VString "OAuth2Error"); ("code", VString code)];
                o2 (length h)]).
Proof.
  intros Hw. unfold wrap_provider_error.
  by apply constructs_then; [apply new_OAuth2Error_constructs |].
Qed.

Lemma read_through_cause (h : heap) (o1 o2 : object) k :
  get o2 "cause" = VRef (length h) →
  result_cause_field k (Normal (S (length h), h ++ [o1; o2])) = Some (get o1 k).
Proof.
  intros Hcause. unfold result_cause_field, read_cause, read.
  rewrite lookup_last_of_two. simpl. rewrite Hcause.
  by rewrite lookup_last_but_one.
Qed.

Lemma read_wrapper (h : heap) (o1 o2 : object) k :
  result_field k (Normal (S (length h), h ++ [o1; o2])) = Some (get o2 k).
Proof. unfold result_field, read. by rewrite lookup_last_of_two. Qed.

(** Evaluates an observation on a wrapped provider error. *)
Ltac run_wrapper :=
  erewrite wrap_provider_error_run
    by (intros ?; cbv beta;
        lazymatch goal with
        | |- constructs (new_AuthorizationError _ _) _ =>
            apply new_AuthorizationError_constructs
        | |- constructs (new_AuthorizationCodeGrantError _ _) _ =>
            apply new_AuthorizationCodeGrantError_constructs
        | |- constructs (new_AccessTokenError _ _ _) _ =>
            apply new_AccessTokenError_constructs
        | |- constructs (new_AccessTokenForConnectionError _ _ _) _ =>
            apply new_AccessTokenForConnectionError_constructs
        end);
  cbv beta.

Ltac through_wrapper :=
  run_wrapper;
  first [ rewrite read_through_cause by (by vm_compute)
        | rewrite read_wrapper ];
  vm_compute; try reflexivity.

(** ** Names and classes *)

(** X1: every constructor sets [name] to the name of its own class, whatever
    its arguments. *)
Theorem constructed_names code message text cause opt_cause h :
  result_field "name" (new_OAuth2Error code message h) = Some (VString "OAuth2Error")
  ∧ result_field "name" (new_DiscoveryError message h) = Some (VString "DiscoveryError")
  ∧ result_field "name" (new_MissingStateError message h)
    = Some (VString "MissingStateError")
  ∧ result_field "name" (new_InvalidStateError message h)
    = Some (VString "InvalidStateError")
  ∧ result_field "name" (new_AuthorizationError cause message h)
    = Some (VString "AuthorizationError")
  ∧ result_field "name" (new_AuthorizationCodeGrantRequestError message h)
    = Some (VString "AuthorizationCodeGrantRequestError")
  ∧ result_field "name" (new_AuthorizationCodeGrantError cause message h)
    = Some (VString "AuthorizationCodeGrantError")
  ∧ result_field "name" (new_BackchannelLogoutError message h)
    = Some (VString "BackchannelLogoutError")
  ∧ result_field "name" (new_AccessTokenError code text opt_cause h)
    = Some (VString "AccessTokenError")
  ∧ result_field "name" (new_AccessTokenForConnectionError code text opt_cause h)
    = Some (VString "AccessTokenForConnectionError").
Proof. conjuncts; by evaluate. Qed.

(** X2: every constructor yields an instance of its own class, and through
    [extends SdkError] an instance of [SdkError] and of [Error]; the provider
    error is an [SdkError] like the others, and no error is an instance of a
    sibling class. *)
Theorem constructed_classes code message text cause opt_cause h :
  constructed_as OAuth2Error (new_OAuth2Error code message h)
  ∧ constructed_as DiscoveryError (new_DiscoveryError message h)
  ∧ constructed_as MissingStateError (new_MissingStateError message h)
  ∧ constructed_as InvalidStateError (new_InvalidStateError message h)
  ∧ constructed_as AuthorizationError (new_AuthorizationError cause message h)
  ∧ constructed_as AuthorizationCodeGrantRequestError
      (new_AuthorizationCodeGrantRequestError message h)
  ∧ constructed_as AuthorizationCodeGrantError
      (new_AuthorizationCodeGrantError cause message h)
  ∧ constructed_as BackchannelLogoutError (new_BackchannelLogoutError message h)
  ∧ constructed_as AccessTokenError (new_AccessTokenError code text opt_cause h)
  ∧ constructed_as AccessTokenForConnectionError
      (new_AccessTokenForConnectionError code text opt_cause h).
Proof.
  conjuncts; eexists; (split; [by field_of_new |]);
    (split; [reflexivity |]); by intros [].
Qed.


(** X4: the access-token errors have no default message: the [message]
    argument is stored as it is, the empty string included. *)
Theorem access_token_message_is_the_argument code text cause h :
  result_field "message" (new_AccessTokenError code text cause h) = Some (VString text)
  ∧ result_field "message" (new_AccessTokenForConnectionError code text cause h)
    = Some (VString text)
  ∧ result_field "message" (new_AccessTokenError code "" cause h) = Some (VString "")
  ∧ result_field "message" (new_AccessTokenForConnectionError code "" cause h)
    = Some (VString "").
Proof. conjuncts; by evaluate. Qed.

(** X5: the explicit-message behaviour of the flow-specific errors holds for
    the provider error too: a given message is stored as it is, the code is
    the one given, and the object is otherwise the one built without a
    message. *)
Theorem OAuth2Error_message_override code :
  message_override (new_OAuth2Error code) code.
Proof. intros s h. conjuncts; by evaluate. Qed.

(** ** Chains of errors *)

(** X6: a provider error wrapped in an [AuthorizationError] or an
    [AuthorizationCodeGrantError] is reached through [cause] with the code and
    description the provider gave.  The wrapper's own message is its argument
    or its own default, never the provider's description, and the two
    constructions allocate two objects. *)
Theorem provider_error_behind_authorization_errors code description message h :
  (carries_provider_error
     (wrap_provider_error (λ c, new_AuthorizationError c message) code description h)
     code description
   ∧ result_field "message"
       (wrap_provider_error (λ c, new_AuthorizationError c message) code description h)
     = Some (VString (message ?? "An error occured during the authorization flow."))
   ∧ objects_after
       (wrap_provider_error (λ c, new_AuthorizationError c message) code description h)
     = Some (S (S (length h))))
  ∧ (carries_provider_error
       (wrap_provider_error (λ c, new_AuthorizationCodeGrantError c message)
          code description h)
       code description
     ∧ result_field "message"
         (wrap_provider_error (λ c, new_AuthorizationCodeGrantError c message)
            code description h)
       = Some (VString (message ??
                          "An error occured while trying to exchange the authorization code."))
     ∧ objects_after
         (wrap_provider_error (λ c, new_AuthorizationCodeGrantError c message)
            code description h)
       = Some (S (S (length h)))).
Proof.
  unfold carries_provider_error.
  conjuncts;
    lazymatch goal with
    | |- objects_after _ = _ =>
        run_wrapper;
        unfold objects_after; simpl; rewrite length_app; simpl; f_equal; lia
    | |- _ => by through_wrapper
    end.
Qed.

(** X7: the same for the access-token errors when the caller passes the
    provider error as [cause]: the provider's code and description are read
    through [cause], and the error's own code and message are the arguments
    of its constructor. *)
Theorem provider_error_behind_access_token_errors code description own_code text h :
  (carries_provider_error
     (wrap_provider_error (λ c, new_AccessTokenError own_code text (Given c))
        code description h)
     code description
   ∧ result_field "code"
       (wrap_provider_error (λ c, new_AccessTokenError own_code text (Given c))
          code description h)
     = Some (VString own_code)
   ∧ result_field "message"
       (wrap_provider_error (λ c, new_AccessTokenError own_code text (Given c))
          code description h)
     = Some (VString text))
  ∧ (carries_provider_error
       (wrap_provider_error (λ c, new_AccessTokenForConnectionError own_code text (Given c))
          code description h)
       code description
     ∧ result_field "code"
         (wrap_provider_error (λ c, new_AccessTokenForConnectionError own_code text (Given c))
            code description h)
       = Some (VString own_code)
     ∧ result_field "message"
         (wrap_provider_error (λ c, new_AccessTokenForConnectionError own_code text (Given c))
            code description h)
       = Some (VString text)).
Proof. unfold carries_provider_error. conjuncts; by through_wrapper. Qed.

(** X8: two provider errors constructed one after the other from the same
    code and message are two objects: the references differ, the objects
    they point to are equal. *)
Theorem independent_provider_errors_are_distinct code message h :
  ∃ first second h',
    twice (new_OAuth2Error code message) h = Normal ((first, second), h')
    ∧ first ≠ second
    ∧ is_Some (h' !! first)
    ∧ h' !! first = h' !! second.
Proof.
  exists (length h), (S (length h)). eexists.
  unfold twice, mbind, M_bind, mret, M_ret.
  rewrite !new_OAuth2Error_constructs, length_app, <- app_assoc. simpl.
  replace (length h + 1) with (S (length h)) by lia.
  split; [reflexivity |]. split; [lia |].
  rewrite lookup_last_but_one, lookup_last_of_two. by split; [eexists |].
Qed.

(** ** Codes *)

(** X9: the strings of each access-token enumeration are pairwise distinct
    and [members] lists every member, so a code names one member.  The two
    enumerations share the strings of their first two members and differ in
    the third: neither failure code belongs to the other enumeration. *)
Theorem access_token_code_enumerations :
  NoDup AccessTokenErrorCode.codes
  ∧ NoDup AccessTokenForConnectionErrorCode.codes
  ∧ (∀ c, c ∈ AccessTokenErrorCode.members)
  ∧ (∀ c, c ∈ AccessTokenForConnectionErrorCode.members)
  ∧ take 2 AccessTokenErrorCode.codes = take 2 AccessTokenForConnectionErrorCode.codes
  ∧ ("failed_to_refresh_token" ∉ AccessTokenForConnectionErrorCode.codes)
  ∧ ("failed_to_exchange_refresh_token" ∉ AccessTokenErrorCode.codes).
Proof.
  conjuncts.
  - by apply (bool_decide_unpack _).
  - by apply (bool_decide_unpack _).
  - intros c. apply list_elem_of_In. destruct c; cbn; auto.
  - intros c. apply list_elem_of_In. destruct c; cbn; auto.
  - reflexivity.
  - by apply (bool_decide_unpack _).
  - by apply (bool_decide_unpack _).
Qed.

(** X10: the seven flow-specific codes are pairwise distinct, so the code of
    a flow-specific error tells its class, and none of them is a code of the
    access-token enumerations. *)
Theorem flow_codes_identify_the_class message cause h :
  NoDup (flow_codes message cause h)
  ∧ Forall (λ c, c ∉ access_token_codes) (flow_codes message cause h).
Proof.
  unfold flow_codes. field_of_new. split.
  - by apply (bool_decide_unpack _).
  - by apply (bool_decide_unpack _).
Qed.
